(** * Time-series-momentum pipeline (hw1): shallow embedding and checked claims

    The Python sources embedded here are
      - [src/io.py]          [read_data]
      - [src/returns.py]     [calculate_returns]
      - [src/momentum.py]    [calculate_momentum]
      - [src/signals.py]     [generate_signals]
      - [src/strategy.py]    [calculate_volatility], [calculate_strategy_returns]
      - [src/performance.py] [calculate_performance]
      - [hw1.py]             [run_pipeline], [main]
      - [tests/test_public_basic.py], [tests/test_public_shapes.py]
                             the fixtures and the checks that compute
                             something of their own

    Python exceptions are modelled in the error monad [sum exn] of ExtLib:
    [inl e] is an uncaught exception [e], [inr v] is a normal return of [v].
    pandas cells are IEEE-754 binary64 numbers, with NaN as the missing
    value; they are modelled by Rocq's primitive floats. *)

From Stdlib Require Import String Ascii List ZArith Bool PrimFloat.
From Stdlib Require Import DecimalString Lia.
From ExtLib Require Import Structures.Monad Structures.MonadExc.
From ExtLib Require Import Data.Monads.EitherMonad.
Import ListNotations.
Import MonadNotation.
Local Open Scope string_scope.
Local Open Scope monad_scope.

(** ** Exceptions and the result type *)

(** The two exceptions the embedded code can raise: the explicit
    [raise NotImplementedError(msg)] of the pipeline functions, and the
    [KeyError] of a column lookup [df[label]] on an absent label. *)
Inductive exn : Type :=
| NotImplementedError (msg : string)
| KeyError (key : string).

Definition py (A : Type) : Type := sum exn A.

#[export] Instance Monad_py : Monad py := Monad_either exn.
#[export] Instance Exception_py : MonadExc exn py := Exception_either exn.

(** [returns c] holds when the call [c] returns normally. *)
Definition returns {A : Type} (c : py A) : Prop := exists v, c = inr v.

(** [raises c e] holds when the call [c] ends in the exception [e]. *)
Definition raises {A : Type} (c : py A) (e : exn) : Prop := c = inl e.

(** ** Data model *)

(** A [pd.Series]: a datetime index (timestamps) and one float per row. *)
Record Series : Type := mkSeries {
  s_index : list Z;
  s_values : list float
}.

(** A [pd.DataFrame]: a datetime index and labelled columns, in column
    order, each column holding one float per row. *)
Record DataFrame : Type := mkDataFrame {
  index : list Z;
  columns : list (string * list float)
}.

(** The [dict] of metrics [calculate_performance] is declared to return. *)
Definition PerformanceDict : Type := list (string * float).

(** The files [read_data] can see: a path is mapped to its text. *)
Definition FileSystem : Type := string -> option string.

(** [df[label]]: the first column under [label], [KeyError] otherwise. *)
Fixpoint lookup_column (label : string) (cols : list (string * list float))
  : option (list float) :=
  match cols with
  | [] => None
  | (l, vs) :: cols' =>
      if String.eqb l label then Some vs else lookup_column label cols'
  end.

Definition getitem (df : DataFrame) (label : string) : py Series :=
  match lookup_column label (columns df) with
  | Some vs => ret (mkSeries (index df) vs)
  | None => raise (KeyError label)
  end.

(** ** The pipeline functions, as shipped *)

(** [src/io.py], [read_data]: the body is the single statement
    [raise NotImplementedError("Implement read_data")]. *)
Definition read_data (fs : FileSystem) (filepath : string) : py DataFrame :=
  raise (NotImplementedError "Implement read_data").

(** [src/returns.py], [calculate_returns]. *)
Definition calculate_returns (prices : DataFrame) : py DataFrame :=
  raise (NotImplementedError "Implement calculate_returns").

(** [src/momentum.py], [calculate_momentum]. *)
Definition calculate_momentum (daily_returns : DataFrame) (lookback_days : Z)
  : py DataFrame :=
  raise (NotImplementedError "Implement calculate_momentum").

(** [src/signals.py], [generate_signals]. *)
Definition generate_signals (momentum : DataFrame) : py DataFrame :=
  raise (NotImplementedError "Implement generate_signals").

(** [src/strategy.py], [calculate_volatility]; [vol_lookback] defaults
    to 252. *)
Definition calculate_volatility (daily_returns : DataFrame) (vol_lookback : Z)
  : py DataFrame :=
  raise (NotImplementedError "Implement calculate_volatility").

Definition default_vol_lookback : Z := 252.

(** [src/strategy.py], [calculate_strategy_returns]; [target_vol]
    defaults to 0.10 ([default_target_vol] below). *)
Definition calculate_strategy_returns
  (signals daily_returns volatility : DataFrame) (target_vol : float)
  : py DataFrame :=
  raise (NotImplementedError "Implement calculate_strategy_returns").

(** The binary64 value of the Python literal [0.10]. *)
Definition default_target_vol : float := 0x1.999999999999ap-4%float.

(** [src/performance.py], [calculate_performance]. *)
Definition calculate_performance (daily_returns : Series) : py PerformanceDict :=
  raise (NotImplementedError "Implement calculate_performance").

(** [hw1.py], [run_pipeline]: the seven steps in sequence; an exception
    of a step ends the pipeline with that exception. *)
Definition run_pipeline (fs : FileSystem) (lookback_days : Z) (data_path : string)
  : py PerformanceDict :=
  daily_prices <- read_data fs data_path ;;
  daily_returns <- calculate_returns daily_prices ;;
  momentum <- calculate_momentum daily_returns lookback_days ;;
  signals <- generate_signals momentum ;;
  volatility <- calculate_volatility daily_returns lookback_days ;;
  strategy_returns <-
    calculate_strategy_returns signals daily_returns volatility
                               default_target_vol ;;
  tsmom_returns <- getitem strategy_returns "TSMOM" ;;
  performance <- calculate_performance tsmom_returns ;;
  ret performance.

Definition default_lookback_days : Z := 252.
Definition default_data_path : string := "data/price_data.csv".

(** ** The documented behaviour

    Each function's docstring states what the function is to compute.
    The definitions of this module follow the docstrings (and, where a
    docstring is silent, the pandas convention it names), so that the
    shipped bodies can be compared with them.  They are the reference
    side of the comparison, not the code. *)

Module Documented.

Local Open Scope float_scope.

(** *** Arithmetic on a list of cells *)

(** The number of cells, as a float. *)
Definition count (l : list float) : float :=
  fold_left (fun n _ => n + 1) l 0.

Definition total (l : list float) : float := fold_left add l 0.

Definition mean (l : list float) : float := total l / count l.

(** Sample standard deviation (denominator [n - 1]); as in pandas it
    is missing when there are fewer than two cells. *)
Definition sample_std (l : list float) : float :=
  let m := mean l in
  if count l <=? 1 then nan
  else sqrt (total (map (fun x => (x - m) * (x - m)) l) / (count l - 1)).

Definition dropna (l : list float) : list float :=
  filter (fun x => negb (is_nan x)) l.

(** The cells [start], ..., [start + len - 1] of a column. *)
Definition window (l : list float) (start len : nat) : list float :=
  firstn len (skipn start l).

(** A column moved down by one row: row [t] holds the former row
    [t - 1], row 0 is missing. *)
Definition shift1 (l : list float) : list float :=
  firstn (length l) (nan :: l).

Definition map_columns (f : list float -> list float) (df : DataFrame)
  : DataFrame :=
  mkDataFrame (index df) (map (fun c => (fst c, f (snd c))) (columns df)).

(** *** [calculate_returns]: [r_t = P_t / P_{t-1} - 1], first row NaN *)

Fixpoint returns_after (prev : float) (ps : list float) : list float :=
  match ps with
  | [] => []
  | p :: ps' => (p / prev - 1) :: returns_after p ps'
  end.

Definition returns_column (ps : list float) : list float :=
  match ps with
  | [] => []
  | p :: ps' => nan :: returns_after p ps'
  end.

Definition calculate_returns (prices : DataFrame) : DataFrame :=
  map_columns returns_column prices.

(** *** [calculate_momentum]:
    [(1 + r_{t-L}) * ... * (1 + r_{t-1}) - 1], NaN without history *)

Definition momentum_at (rs : list float) (L t : nat) : float :=
  if (t <? L)%nat then nan
  else fold_left mul (map (fun r => 1 + r) (window rs (t - L) L)) 1 - 1.

Definition momentum_column (L : nat) (rs : list float) : list float :=
  map (momentum_at rs L) (seq 0 (length rs)).

Definition calculate_momentum (daily_returns : DataFrame) (lookback_days : nat)
  : DataFrame :=
  map_columns (momentum_column lookback_days) daily_returns.

(** *** [generate_signals]: +1.0, -1.0, and 0.0 for NaN or exactly 0 *)

Definition signal_of (m : float) : float :=
  if 0 <? m then 1 else if m <? 0 then -1 else 0.

Definition generate_signals (momentum : DataFrame) : DataFrame :=
  map_columns (map signal_of) momentum.

(** *** [calculate_volatility]:
    [std(r_{t-W+1}, ..., r_t) * sqrt(252)], NaN without history *)

Definition volatility_at (rs : list float) (W t : nat) : float :=
  if (t + 1 <? W)%nat then nan
  else sample_std (window rs (t + 1 - W) W) * sqrt 252.

Definition volatility_column (W : nat) (rs : list float) : list float :=
  map (volatility_at rs W) (seq 0 (length rs)).

Definition calculate_volatility (daily_returns : DataFrame) (vol_lookback : nat)
  : DataFrame :=
  map_columns (volatility_column vol_lookback) daily_returns.

(** *** [calculate_strategy_returns]:
    [signal_t * (target_vol / vol_{t-1}) * r_t], and the column 'TSMOM' *)

Fixpoint strategy_cells (target_vol : float) (sig lagged_vol rs : list float)
  : list float :=
  match sig, lagged_vol, rs with
  | s :: sig', v :: vol', r :: rs' =>
      (s * (target_vol / v) * r) :: strategy_cells target_vol sig' vol' rs'
  | _, _, _ => []
  end.

Definition strategy_column (target_vol : float) (sig vol rs : list float)
  : list float :=
  strategy_cells target_vol sig (shift1 vol) rs.

(** The asset columns, taken position by position from the three
    tables (which have the same columns). *)
Fixpoint strategy_columns (target_vol : float)
  (sigs vols rets : list (string * list float)) : list (string * list float) :=
  match sigs, vols, rets with
  | (l, s) :: sigs', (_, v) :: vols', (_, r) :: rets' =>
      (l, strategy_column target_vol s v r)
        :: strategy_columns target_vol sigs' vols' rets'
  | _, _, _ => []
  end.

(** The mean of the cells of a row that are not missing; missing when
    all of them are. *)
Definition nanmean (row : list float) : float :=
  match dropna row with
  | [] => nan
  | kept => mean kept
  end.

Definition row_at (cols : list (string * list float)) (t : nat) : list float :=
  map (fun c => nth t (snd c) nan) cols.

Definition aggregate_label : string := "TSMOM".

Definition calculate_strategy_returns
  (signals daily_returns volatility : DataFrame) (target_vol : float)
  : DataFrame :=
  let cols := strategy_columns target_vol (columns signals)
                (columns volatility) (columns daily_returns) in
  let agg := map (fun t => nanmean (row_at cols t))
                 (seq 0 (length (index signals))) in
  mkDataFrame (index signals) (cols ++ [(aggregate_label, agg)]).

(** *** [calculate_performance]: NaN dropped, then the three metrics *)

Definition annualized_return (r : list float) : float := mean r * 252.

Definition annualized_volatility (r : list float) : float :=
  sample_std r * sqrt 252.

Definition calculate_performance (daily_returns : Series) : PerformanceDict :=
  let r := dropna (s_values daily_returns) in
  [ ("annualized_return"%string, annualized_return r);
    ("annualized_volatility"%string, annualized_volatility r);
    ("sharpe_ratio"%string, annualized_return r / annualized_volatility r) ].

(** *** [read_data]: the price columns of the file *)

(** The fields of one line of comma-separated text. *)
Fixpoint fields (acc : string) (line : string) : list string :=
  match line with
  | EmptyString => [acc]
  | String c rest =>
      if Ascii.eqb c ","%char then acc :: fields EmptyString rest
      else fields (acc ++ String c EmptyString)%string rest
  end.

(** The first line of a text. *)
Fixpoint first_line (text : string) : string :=
  match text with
  | EmptyString => EmptyString
  | String c rest =>
      if Ascii.eqb c (Ascii.ascii_of_nat 10) then EmptyString
      else String c (first_line rest)
  end.

(** The header labels of a CSV text other than 'Date': the columns
    that hold prices. *)
Definition price_labels (text : string) : list string :=
  filter (fun l => negb (String.eqb l "Date"))
         (fields EmptyString (first_line text)).

End Documented.

(** ** Sample inputs

    Small well-formed tables, with cells that are exact in binary64. *)

Module Sample.

Local Open Scope float_scope.

(** [n] consecutive trading days, as day numbers. *)
Definition days (n : nat) : list Z :=
  map (fun k => (18263 + Z.of_nat k)%Z) (seq 0 n).

(** A price table of five days and two assets. *)
Definition prices : DataFrame :=
  mkDataFrame (days 5)
    [ ("SP500"%string, [100; 150; 75; 150; 187.5]);
      ("NASDAQ"%string, [8; 4; 5; 10; 5]) ].

(** Its documented returns. *)
Definition daily_returns : DataFrame :=
  mkDataFrame (days 5)
    [ ("SP500"%string, [nan; 0.5; -0.5; 1; 0.25]);
      ("NASDAQ"%string, [nan; -0.5; 0.25; 1; -0.5]) ].

(** The documented momentum of [daily_returns] for a lookback of 2. *)
Definition momentum : DataFrame :=
  mkDataFrame (days 5)
    [ ("SP500"%string, [nan; nan; nan; -0.25; 0]);
      ("NASDAQ"%string, [nan; nan; nan; -0.375; 1.5]) ].

(** A table with no cell that is not missing. *)
Definition all_missing : DataFrame :=
  mkDataFrame (days 5)
    [ ("SP500"%string, [nan; nan; nan; nan; nan]);
      ("NASDAQ"%string, [nan; nan; nan; nan; nan]) ].

(** The documented signals of [momentum]. *)
Definition signals : DataFrame :=
  mkDataFrame (days 5)
    [ ("SP500"%string, [0; 0; 0; -1; 0]);
      ("NASDAQ"%string, [0; 0; 0; -1; 1]) ].

(** Returns whose three-day windows have a sample standard deviation
    of exactly 0.25, and their documented volatility for a window
    of 3. *)
Definition steady_returns : DataFrame :=
  mkDataFrame (days 5) [ ("SP500"%string, [nan; 0; 0.25; 0.5; 0.75]) ].

Definition steady_volatility : DataFrame :=
  mkDataFrame (days 5)
    [ ("SP500"%string, [nan; nan; nan; 0.25 * sqrt 252; 0.25 * sqrt 252]) ].

(** Inputs of the strategy-return step: four days, two assets, a
    target volatility of 0.125. *)
Definition st_signals : DataFrame :=
  mkDataFrame (days 4)
    [ ("SP500"%string, [0; 1; -1; 1]); ("NASDAQ"%string, [0; 0; 1; 1]) ].

Definition st_returns : DataFrame :=
  mkDataFrame (days 4)
    [ ("SP500"%string, [nan; 0.5; -0.5; 0.25]);
      ("NASDAQ"%string, [nan; 1; 0.5; -0.5]) ].

Definition st_volatility : DataFrame :=
  mkDataFrame (days 4)
    [ ("SP500"%string, [nan; 0.5; 0.25; 0.5]);
      ("NASDAQ"%string, [nan; nan; 0.5; 0.25]) ].

Definition st_target_vol : float := 0.125.

(** The documented per-asset strategy returns of these inputs. *)
Definition st_asset_columns : list (string * list float) :=
  [ ("SP500"%string, [nan; nan; 0.125; 0.125]);
    ("NASDAQ"%string, [nan; nan; nan; -0.125]) ].

(** The documented aggregate column of these inputs. *)
Definition st_aggregate : Series := mkSeries (days 4) [nan; nan; 0.125; 0].

(** A return series with two missing values. *)
Definition tsmom_returns : Series :=
  mkSeries (days 5) [nan; 0.5; -0.25; nan; 0.5].

(** A CSV text with the three assets of the docstring, another with
    two other assets, and a file system that holds both. *)
Definition nl : string := String (ascii_of_nat 10) EmptyString.

Definition three_asset_csv : string :=
  ("Date,SP500,NASDAQ,DJIA" ++ nl ++
   "2020-01-02,100,8,50" ++ nl ++
   "2020-01-03,150,4,25" ++ nl)%string.

Definition two_asset_csv : string :=
  ("Date,GOLD,OIL" ++ nl ++
   "2020-01-02,100,8" ++ nl ++
   "2020-01-03,150,4" ++ nl)%string.

Definition fs : FileSystem :=
  fun path =>
    if String.eqb path "data/price_data.csv" then Some three_asset_csv
    else if String.eqb path "data/metals.csv" then Some two_asset_csv
    else None.

End Sample.

(** ** The pipeline over its stage functions

    [run_pipeline] and [main] of [hw1.py], and the fixtures of the
    public tests, call the seven stage functions by name; which function
    a name stands for is decided when the call is made.  [Stages] holds
    one implementation per name, and [shipped] the ones of the
    repository. *)

Record Stages : Type := mkStages {
  impl_read_data : string -> py DataFrame;
  impl_calculate_returns : DataFrame -> py DataFrame;
  impl_calculate_momentum : DataFrame -> Z -> py DataFrame;
  impl_generate_signals : DataFrame -> py DataFrame;
  impl_calculate_volatility : DataFrame -> Z -> py DataFrame;
  impl_calculate_strategy_returns :
    DataFrame -> DataFrame -> DataFrame -> float -> py DataFrame;
  impl_calculate_performance : Series -> py PerformanceDict
}.

Definition shipped (fs : FileSystem) : Stages :=
  mkStages (read_data fs) calculate_returns calculate_momentum
           generate_signals calculate_volatility
           calculate_strategy_returns calculate_performance.

(** [hw1.py], [run_pipeline], with the stage functions of [S]. *)
Definition run_pipeline_with (S : Stages) (lookback_days : Z)
  (data_path : string) : py PerformanceDict :=
  daily_prices <- impl_read_data S data_path ;;
  daily_returns <- impl_calculate_returns S daily_prices ;;
  momentum <- impl_calculate_momentum S daily_returns lookback_days ;;
  signals <- impl_generate_signals S momentum ;;
  volatility <- impl_calculate_volatility S daily_returns lookback_days ;;
  strategy_returns <-
    impl_calculate_strategy_returns S signals daily_returns volatility
                                    default_target_vol ;;
  tsmom_returns <- getitem strategy_returns "TSMOM" ;;
  performance <- impl_calculate_performance S tsmom_returns ;;
  ret performance.




(** The same, but with a strategy step that returns its per-asset
    columns only, without the column 'TSMOM'. *)
Definition stages_without_tsmom (prices : DataFrame) : Stages :=
  mkStages
    (fun _ => ret prices)
    (fun p => ret (Documented.calculate_returns p))
    (fun r L => ret (Documented.calculate_momentum r (Z.to_nat L)))
    (fun m => ret (Documented.generate_signals m))
    (fun r W => ret (Documented.calculate_volatility r (Z.to_nat W)))
    (fun s r v tv =>
       ret (mkDataFrame (index s)
              (Documented.strategy_columns tv (columns s) (columns v)
                 (columns r))))
    (fun s => ret (Documented.calculate_performance s)).

(** ** [hw1.py], [main]

    Standard output is a text that [print] extends; a call leaves the
    text it has printed also when it ends in an exception. *)

Definition io (A : Type) : Type := string -> string * py A.

Definition io_ret {A : Type} (v : A) : io A := fun out => (out, inr v).

Definition io_bind {A B : Type} (c : io A) (k : A -> io B) : io B :=
  fun out =>
    match c out with
    | (out', inr v) => k v out'
    | (out', inl e) => (out', inl e)
    end.

#[export] Instance Monad_io : Monad io :=
  {| ret := @io_ret; bind := @io_bind |}.

(** A call of a function that does not print. *)
Definition call {A : Type} (c : py A) : io A := fun out => (out, c).

Definition newline : string := String (ascii_of_nat 10) EmptyString.

(** [print(s)]: the text and a line end. *)
Definition print (s : string) : io unit :=
  fun out => (out ++ s ++ newline, inr tt).

(** [str(n)] for a Python [int]. *)
Definition str_int (n : Z) : string :=
  DecimalString.NilZero.string_of_int (Z.to_int n).

(** [s * n] for a string [s] and a count [n]. *)
Fixpoint str_mul (s : string) (n : nat) : string :=
  match n with
  | O => EmptyString
  | S n' => s ++ str_mul s n'
  end.

(** [d[key]] for the dictionary of metrics. *)
Fixpoint dict_getitem (d : PerformanceDict) (key : string) : py float :=
  match d with
  | [] => raise (KeyError key)
  | (k, v) :: d' => if String.eqb k key then ret v else dict_getitem d' key
  end.

(** The value of [parser.parse_args()]. *)
Record Namespace : Type := mkNamespace {
  args_lookback_days : Z;
  args_data : string
}.

Definition header_line (args : Namespace) : string :=
  "Running Time Series Momentum Strategy (lookback="
    ++ str_int (args_lookback_days args) ++ " days)".

Definition rule_line : string := str_mul "=" 60.

(** [main], from the point where the arguments are parsed.
    [pipeline] is the function the name [run_pipeline] stands for, and
    [format_10_4f] the rendering of a float under the format [>10.4f]. *)
Definition main_with (pipeline : Z -> string -> py PerformanceDict)
  (format_10_4f : float -> string) (args : Namespace) : io unit :=
  print (header_line args) ;;
  print rule_line ;;
  performance <- call (pipeline (args_lookback_days args) (args_data args)) ;;
  print (newline ++ "Performance Metrics (TSMOM Portfolio):") ;;
  v <- call (dict_getitem performance "annualized_return") ;;
  print ("  Annualized Return:     " ++ format_10_4f v) ;;
  v <- call (dict_getitem performance "annualized_volatility") ;;
  print ("  Annualized Volatility: " ++ format_10_4f v) ;;
  v <- call (dict_getitem performance "sharpe_ratio") ;;
  print ("  Sharpe Ratio:          " ++ format_10_4f v).

(** [main] with the shipped [run_pipeline]. *)
Definition main (fs : FileSystem) (format_10_4f : float -> string)
  (args : Namespace) : io unit :=
  main_with (run_pipeline fs) format_10_4f args.

(** The first of the three metric keys, in the order [main] reads
    them, that a dictionary lacks. *)
Definition has_key (d : PerformanceDict) (key : string) : bool :=
  existsb (fun kv => String.eqb (fst kv) key) d.

Definition first_missing_metric (d : PerformanceDict) : option string :=
  if negb (has_key d "annualized_return") then Some "annualized_return"
  else if negb (has_key d "annualized_volatility")
       then Some "annualized_volatility"
  else if negb (has_key d "sharpe_ratio") then Some "sharpe_ratio"
  else None.

(** ** The public tests

    [tests/test_public_basic.py] and [tests/test_public_shapes.py]:
    the fixtures, which both modules define alike, and the checks that
    compute something of their own. *)

Module TestPublic.

Definition DATA_PATH : string := "data/price_data.csv".
Definition LOOKBACK_DAYS : Z := 63.

(** *** Fixtures

    A fixture that takes other fixtures has them evaluated first, in
    the order of its parameters; an exception of one of them is the
    outcome of the fixture. *)

Definition prices (S : Stages) : py DataFrame :=
  impl_read_data S DATA_PATH.

Definition daily_returns (S : Stages) : py DataFrame :=
  prices <- prices S ;;
  impl_calculate_returns S prices.

Definition momentum (S : Stages) : py DataFrame :=
  daily_returns <- daily_returns S ;;
  impl_calculate_momentum S daily_returns LOOKBACK_DAYS.

Definition signals (S : Stages) : py DataFrame :=
  momentum <- momentum S ;;
  impl_generate_signals S momentum.

Definition volatility (S : Stages) : py DataFrame :=
  daily_returns <- daily_returns S ;;
  impl_calculate_volatility S daily_returns LOOKBACK_DAYS.

Definition strategy_returns (S : Stages) : py DataFrame :=
  signals <- signals S ;;
  daily_returns <- daily_returns S ;;
  volatility <- volatility S ;;
  impl_calculate_strategy_returns S signals daily_returns volatility
                                  default_target_vol.

(** The fixture of [TestCalculatePerformance]. *)
Definition performance (S : Stages) : py PerformanceDict :=
  strategy_returns <- strategy_returns S ;;
  tsmom_returns <- getitem strategy_returns "TSMOM" ;;
  impl_calculate_performance S tsmom_returns.

(** *** Outcomes of a check *)

Inductive test_exn : Type :=
| AssertionError
| IndexError.

Definition outcome : Type := sum test_exn unit.

Definition passed : outcome := inr tt.

(** [assert b]. *)
Definition assert (b : bool) : outcome :=
  if b then inr tt else inl AssertionError.

(** *** [test_momentum_nan_count], [test_volatility_nan_count] *)

(** [col.isna()]. *)
Definition isna (col : list float) : list bool := map is_nan col.

(** [mask.cumsum()]: the running count of the [True] cells. *)
Fixpoint cumsum_from (acc : nat) (mask : list bool) : list nat :=
  match mask with
  | [] => []
  | b :: mask' =>
      let acc' := (acc + (if b then 1 else 0))%nat in
      acc' :: cumsum_from acc' mask'
  end.

Definition cumsum (mask : list bool) : list nat := cumsum_from 0 mask.

(** [xs == range(start, start + len(xs))], cell by cell. *)
Definition eq_range (xs : list nat) (start : nat) : list bool :=
  map (fun p => Nat.eqb (fst p) (snd p)) (combine xs (seq start (length xs))).

(** [mask.sum()]: the number of [True] cells. *)
Definition sum_mask (mask : list bool) : nat :=
  fold_right (fun (b : bool) n => ((if b then 1 else 0) + n)%nat) 0%nat mask.

(** The three lines that both tests share:
    [leading_nans = first_col.isna().cumsum()] and
    [nan_count = (leading_nans == range(1, len(leading_nans) + 1)).sum()]. *)
Definition nan_count (first_col : list float) : nat :=
  let leading_nans := cumsum (isna first_col) in
  sum_mask (eq_range leading_nans 1).

(** [df.iloc[:, 0]]: the first column, [IndexError] when there is
    none. *)
Definition iloc_first_column (df : DataFrame) : sum test_exn (list float) :=
  match columns df with
  | [] => inl IndexError
  | c :: _ => inr (snd c)
  end.

Definition test_nan_count (table : DataFrame) : outcome :=
  match iloc_first_column table with
  | inl e => inl e
  | inr first_col =>
      assert (LOOKBACK_DAYS <=? Z.of_nat (nan_count first_col))%Z
  end.

Definition test_momentum_nan_count (momentum : DataFrame) : outcome :=
  test_nan_count momentum.

Definition test_volatility_nan_count (volatility : DataFrame) : outcome :=
  test_nan_count volatility.

(** The cells of a column before its first cell that is not missing. *)
Fixpoint leading_nans (col : list float) : list float :=
  match col with
  | [] => []
  | x :: col' => if is_nan x then x :: leading_nans col' else []
  end.

(** *** [test_non_negative_values] *)

(** The cell of row [t] of a column. *)
Definition cell (c : string * list float) (t : nat) : float :=
  nth t (snd c) nan.

Definition row_has_na (df : DataFrame) (t : nat) : bool :=
  existsb (fun c => is_nan (cell c t)) (columns df).

(** The cells of [l] at the positions where [mask] holds. *)
Fixpoint select {A : Type} (mask : list bool) (l : list A) : list A :=
  match mask, l with
  | b :: mask', x :: l' => if b then x :: select mask' l' else select mask' l'
  | _, _ => []
  end.

(** [df.dropna()]: the rows without a missing cell. *)
Definition dropna (df : DataFrame) : DataFrame :=
  let keep := map (fun t => negb (row_has_na df t))
                  (seq 0 (length (index df))) in
  mkDataFrame (select keep (index df))
              (map (fun c => (fst c, select keep (snd c))) (columns df)).

(** [(df >= 0).all().all()]. *)
Definition all_non_negative (df : DataFrame) : bool :=
  forallb (fun c => forallb (fun x => (0 <=? x)%float) (snd c)) (columns df).

Definition test_non_negative_values (volatility : DataFrame) : outcome :=
  let valid := dropna volatility in
  assert (all_non_negative valid).

(** *** [TestCalculateStrategyReturns.test_no_inf_values] *)

(** [np.isinf(df.values).any()]. *)
Definition any_infinite (df : DataFrame) : bool :=
  existsb (fun c => existsb is_infinity (snd c)) (columns df).

Definition test_no_inf_values (strategy_returns : DataFrame) : outcome :=
  let valid := dropna strategy_returns in
  assert (negb (any_infinite valid)).

(** A table is well formed when each column has one cell per row. *)
Definition well_formed (df : DataFrame) : Prop :=
  Forall (fun c => length (snd c) = length (index df)) (columns df).

End TestPublic.

(** ** Results *)

(** A call that raises does not return. *)
Lemma raises_not_returns {A : Type} (c : py A) (e : exn) :
  raises c e -> ~ returns c.
Proof.
  unfold raises, returns. intros -> [v Hv]. discriminate Hv.
Qed.

(** C10: as shipped, each of the seven pipeline functions raises
    NotImplementedError on every input, and [run_pipeline] (which calls
    [read_data] first) raises on every input and so never returns a
    performance dictionary. *)
Theorem pipeline_not_implemented :
  (forall fs filepath,
      raises (read_data fs filepath) (NotImplementedError "Implement read_data")) /\
  (forall prices,
      raises (calculate_returns prices)
             (NotImplementedError "Implement calculate_returns")) /\
  (forall daily_returns lookback_days,
      raises (calculate_momentum daily_returns lookback_days)
             (NotImplementedError "Implement calculate_momentum")) /\
  (forall momentum,
      raises (generate_signals momentum)
             (NotImplementedError "Implement generate_signals")) /\
  (forall daily_returns vol_lookback,
      raises (calculate_volatility daily_returns vol_lookback)
             (NotImplementedError "Implement calculate_volatility")) /\
  (forall signals daily_returns volatility target_vol,
      raises (calculate_strategy_returns signals daily_returns volatility target_vol)
             (NotImplementedError "Implement calculate_strategy_returns")) /\
  (forall daily_returns,
      raises (calculate_performance daily_returns)
             (NotImplementedError "Implement calculate_performance")) /\
  (forall fs lookback_days data_path,
      raises (run_pipeline fs lookback_days data_path)
             (NotImplementedError "Implement read_data") /\
      ~ returns (run_pipeline fs lookback_days data_path)).
Proof.
  repeat split; try reflexivity.
  apply raises_not_returns with (e := NotImplementedError "Implement read_data").
  reflexivity.
Qed.

(** A call that raises does not return any value. *)
Lemma raises_differs {A : Type} (c : py A) (e : exn) (v : A) :
  raises c e -> c <> inr v.
Proof.
  unfold raises. intros -> Hv. discriminate Hv.
Qed.

(** *** The documented behaviour has the shape the docstrings promise *)

Lemma returns_after_length (prev : float) (ps : list float) :
  length (Documented.returns_after prev ps) = length ps.
Proof.
  revert prev. induction ps as [|p ps IH]; intros prev; simpl.
  - reflexivity.
  - now rewrite IH.
Qed.

Lemma returns_column_length (ps : list float) :
  length (Documented.returns_column ps) = length ps.
Proof.
  destruct ps as [|p ps]; simpl.
  - reflexivity.
  - now rewrite returns_after_length.
Qed.

Lemma returns_column_first_missing (p : float) (ps : list float) :
  hd_error (Documented.returns_column (p :: ps)) = Some nan.
Proof. reflexivity. Qed.

Lemma map_columns_labels (f : list float -> list float) (df : DataFrame) :
  map fst (columns (Documented.map_columns f df)) = map fst (columns df) /\
  index (Documented.map_columns f df) = index df.
Proof.
  split; [|reflexivity].
  unfold Documented.map_columns; simpl.
  rewrite map_map. reflexivity.
Qed.

Lemma signal_of_values (m : float) :
  Documented.signal_of m = 1%float \/
  Documented.signal_of m = (-1)%float \/
  Documented.signal_of m = 0%float.
Proof.
  unfold Documented.signal_of.
  destruct (0 <? m)%float; [now left|].
  destruct (m <? 0)%float; [right; now left | right; now right].
Qed.

Lemma signal_of_not_missing (m : float) :
  is_nan (Documented.signal_of m) = false.
Proof.
  destruct (signal_of_values m) as [-> | [-> | ->]]; reflexivity.
Qed.

Lemma momentum_column_length (L : nat) (rs : list float) :
  length (Documented.momentum_column L rs) = length rs.
Proof.
  unfold Documented.momentum_column.
  now rewrite length_map, length_seq.
Qed.

Lemma momentum_at_early (rs : list float) (L t : nat) :
  (t < L)%nat -> Documented.momentum_at rs L t = nan.
Proof.
  intros Ht. unfold Documented.momentum_at.
  apply Nat.ltb_lt in Ht. now rewrite Ht.
Qed.

(** With a lookback of at least the number of rows the whole column is
    missing. *)
Lemma momentum_column_all_missing (L : nat) (rs : list float) :
  (length rs <= L)%nat ->
  Documented.momentum_column L rs = repeat nan (length rs).
Proof.
  intros HL. unfold Documented.momentum_column.
  assert (H : forall n start, (start + n <= L)%nat ->
            map (Documented.momentum_at rs L) (seq start n) = repeat nan n).
  { induction n as [|n IH]; intros start Hs; simpl.
    - reflexivity.
    - rewrite momentum_at_early by (eapply Nat.lt_le_trans; [|exact Hs];
        rewrite <- Nat.add_succ_comm; apply Nat.lt_lt_add_r, Nat.lt_succ_diag_r).
      rewrite IH; [reflexivity|].
      now rewrite Nat.add_succ_comm. }
  apply H. exact HL.
Qed.

Lemma volatility_column_length (W : nat) (rs : list float) :
  length (Documented.volatility_column W rs) = length rs.
Proof.
  unfold Documented.volatility_column.
  now rewrite length_map, length_seq.
Qed.

(** The documented sizing uses the volatility of the day before: on
    the first sample asset it differs from what the same day's
    volatility (the cells without the shift) gives. *)
Example documented_volatility_is_lagged :
  (Documented.strategy_column 0.125
     [0; 1; -1; 1] [nan; 0.5; 0.25; 0.5] [nan; 0.5; -0.5; 0.25]
   = [nan; nan; 0.125; 0.125])%float /\
  (Documented.strategy_cells 0.125
     [0; 1; -1; 1] [nan; 0.5; 0.25; 0.5] [nan; 0.5; -0.5; 0.25]
   = [nan; 0.125; 0.25; 0.0625])%float.
Proof.
  split; vm_compute; reflexivity.
Qed.

(** *** The shipped functions against their documentation *)

(** C1 (code defect): the docstring of [calculate_strategy_returns]
    gives [signal_t * (target_vol / vol_{t-1}) * r_t] per asset and day,
    missing where a component is missing; on the sample that is the
    table [Sample.st_asset_columns].  The shipped function raises
    NotImplementedError there, and on every input, so it produces no
    strategy return at all. *)
Theorem calculate_strategy_returns_misses_documented :
  Documented.strategy_columns Sample.st_target_vol
    (columns Sample.st_signals) (columns Sample.st_volatility)
    (columns Sample.st_returns) = Sample.st_asset_columns /\
  raises (calculate_strategy_returns Sample.st_signals Sample.st_returns
            Sample.st_volatility Sample.st_target_vol)
         (NotImplementedError "Implement calculate_strategy_returns") /\
  calculate_strategy_returns Sample.st_signals Sample.st_returns
      Sample.st_volatility Sample.st_target_vol
    <> inr (Documented.calculate_strategy_returns Sample.st_signals
              Sample.st_returns Sample.st_volatility Sample.st_target_vol) /\
  (forall signals daily_returns volatility target_vol,
      ~ returns (calculate_strategy_returns signals daily_returns
                   volatility target_vol)).
Proof.
  split; [vm_compute; reflexivity|].
  split; [reflexivity|].
  split.
  - apply raises_differs
      with (e := NotImplementedError "Implement calculate_strategy_returns").
    reflexivity.
  - intros signals daily_returns volatility target_vol.
    apply raises_not_returns
      with (e := NotImplementedError "Implement calculate_strategy_returns").
    reflexivity.
Qed.

(** C2 (code defect): the docstring of [calculate_momentum] gives
    [(1 + r_{t-L}) * ... * (1 + r_{t-1}) - 1], missing without enough
    history; on the sample returns that is [Sample.momentum] for a
    lookback of 2 and an all-missing table for a lookback of 5, the
    number of rows.  The shipped function raises NotImplementedError
    for both, and on every input. *)
Theorem calculate_momentum_misses_documented :
  Documented.calculate_momentum Sample.daily_returns 2 = Sample.momentum /\
  Documented.calculate_momentum Sample.daily_returns 5 = Sample.all_missing /\
  raises (calculate_momentum Sample.daily_returns 2)
         (NotImplementedError "Implement calculate_momentum") /\
  raises (calculate_momentum Sample.daily_returns 5)
         (NotImplementedError "Implement calculate_momentum") /\
  calculate_momentum Sample.daily_returns 2 <> inr Sample.momentum /\
  (forall daily_returns lookback_days,
      ~ returns (calculate_momentum daily_returns lookback_days)).
Proof.
  split; [vm_compute; reflexivity|].
  split; [vm_compute; reflexivity|].
  split; [reflexivity|].
  split; [reflexivity|].
  split.
  - apply raises_differs
      with (e := NotImplementedError "Implement calculate_momentum").
    reflexivity.
  - intros daily_returns lookback_days.
    apply raises_not_returns
      with (e := NotImplementedError "Implement calculate_momentum").
    reflexivity.
Qed.

(** C3 (code defect): the docstring of [generate_signals] maps a
    positive momentum to +1.0, a negative one to -1.0, and a zero or
    missing one to 0.0; on the sample momentum that is
    [Sample.signals], with no missing cell.  The shipped function
    raises NotImplementedError there, and on every input. *)
Theorem generate_signals_misses_documented :
  Documented.generate_signals Sample.momentum = Sample.signals /\
  forallb (fun c => forallb (fun x => negb (is_nan x)) (snd c))
          (columns Sample.signals) = true /\
  raises (generate_signals Sample.momentum)
         (NotImplementedError "Implement generate_signals") /\
  generate_signals Sample.momentum <> inr Sample.signals /\
  (forall momentum, ~ returns (generate_signals momentum)).
Proof.
  split; [vm_compute; reflexivity|].
  split; [vm_compute; reflexivity|].
  split; [reflexivity|].
  split.
  - apply raises_differs
      with (e := NotImplementedError "Implement generate_signals").
    reflexivity.
  - intros momentum.
    apply raises_not_returns
      with (e := NotImplementedError "Implement generate_signals").
    reflexivity.
Qed.

(** C4 (code defect): the sample series is not empty once its missing
    values are dropped, its documented annualized volatility is not
    zero, and the three documented metrics are finite; the claim has
    [calculate_performance] return three finite scalars for such a
    series.  The shipped function raises NotImplementedError on it, as
    on every input: its failures are not confined to empty or
    zero-volatility series. *)
Theorem calculate_performance_fails_on_regular_series :
  Documented.dropna (s_values Sample.tsmom_returns) <> [] /\
  is_zero (Documented.annualized_volatility
             (Documented.dropna (s_values Sample.tsmom_returns))) = false /\
  forallb (fun kv => is_finite (snd kv))
          (Documented.calculate_performance Sample.tsmom_returns) = true /\
  raises (calculate_performance Sample.tsmom_returns)
         (NotImplementedError "Implement calculate_performance") /\
  ~ returns (calculate_performance Sample.tsmom_returns).
Proof.
  split; [vm_compute; discriminate|].
  split; [vm_compute; reflexivity|].
  split; [vm_compute; reflexivity|].
  split; [reflexivity|].
  apply raises_not_returns
    with (e := NotImplementedError "Implement calculate_performance").
  reflexivity.
Qed.

(** C5 (code defect): the docstring of [calculate_returns] gives
    [r_t = P_t / P_{t-1} - 1] with a first row of NaN and the shape,
    index and columns of the input; on the sample prices that is
    [Sample.daily_returns].  The shipped function raises
    NotImplementedError there, and on every input. *)
Theorem calculate_returns_misses_documented :
  Documented.calculate_returns Sample.prices = Sample.daily_returns /\
  raises (calculate_returns Sample.prices)
         (NotImplementedError "Implement calculate_returns") /\
  calculate_returns Sample.prices <> inr Sample.daily_returns /\
  (forall prices, ~ returns (calculate_returns prices)).
Proof.
  split; [vm_compute; reflexivity|].
  split; [reflexivity|].
  split.
  - apply raises_differs
      with (e := NotImplementedError "Implement calculate_returns").
    reflexivity.
  - intros prices.
    apply raises_not_returns
      with (e := NotImplementedError "Implement calculate_returns").
    reflexivity.
Qed.

(** C6 (code defect): the docstring of [calculate_volatility] gives
    [std(r_{t-W+1}, ..., r_t) * sqrt(252)] with the sample standard
    deviation, missing without enough history; on the sample returns
    and a window of 3 that is [Sample.steady_volatility].  The shipped
    function raises NotImplementedError there, and on every input. *)
Theorem calculate_volatility_misses_documented :
  Documented.calculate_volatility Sample.steady_returns 3
    = Sample.steady_volatility /\
  raises (calculate_volatility Sample.steady_returns 3)
         (NotImplementedError "Implement calculate_volatility") /\
  calculate_volatility Sample.steady_returns 3
    <> inr Sample.steady_volatility /\
  (forall daily_returns vol_lookback,
      ~ returns (calculate_volatility daily_returns vol_lookback)).
Proof.
  split; [vm_compute; reflexivity|].
  split; [reflexivity|].
  split.
  - apply raises_differs
      with (e := NotImplementedError "Implement calculate_volatility").
    reflexivity.
  - intros daily_returns vol_lookback.
    apply raises_not_returns
      with (e := NotImplementedError "Implement calculate_volatility").
    reflexivity.
Qed.

(** C7 (code defect): the docstring of [calculate_strategy_returns]
    adds the column 'TSMOM', the equal-weighted average of the asset
    strategy returns; on the sample the documented table has the two
    asset columns followed by 'TSMOM', which holds
    [Sample.st_aggregate] (missing where both assets are, the one
    present value where one is missing).  Reading 'TSMOM' from the
    result of the shipped function ends in NotImplementedError: no
    column is appended. *)
Theorem tsmom_column_misses_documented :
  map fst (columns (Documented.calculate_strategy_returns Sample.st_signals
                      Sample.st_returns Sample.st_volatility
                      Sample.st_target_vol))
    = (map fst (columns Sample.st_signals) ++ ["TSMOM"])%list /\
  getitem (Documented.calculate_strategy_returns Sample.st_signals
             Sample.st_returns Sample.st_volatility Sample.st_target_vol)
          "TSMOM" = inr Sample.st_aggregate /\
  raises (out <- calculate_strategy_returns Sample.st_signals
                   Sample.st_returns Sample.st_volatility
                   Sample.st_target_vol ;;
          getitem out "TSMOM")
         (NotImplementedError "Implement calculate_strategy_returns") /\
  (forall signals daily_returns volatility target_vol label,
      ~ returns (out <- calculate_strategy_returns signals daily_returns
                          volatility target_vol ;;
                 getitem out label)).
Proof.
  split; [vm_compute; reflexivity|].
  split; [vm_compute; reflexivity|].
  split; [reflexivity|].
  intros signals daily_returns volatility target_vol label.
  apply raises_not_returns
    with (e := NotImplementedError "Implement calculate_strategy_returns").
  reflexivity.
Qed.

(** C8 (code defect): the docstring of [calculate_performance] drops
    the NaN values and gives [mean(r) * 252], [std(r) * sqrt(252)] and
    their ratio; on the sample series, whose retained values are 0.5,
    -0.25 and 0.5, that is 63, [sqrt(0.1875) * sqrt(252)] and their
    ratio.  The shipped function raises NotImplementedError there, and
    on every input. *)
Theorem calculate_performance_misses_documented :
  Documented.dropna (s_values Sample.tsmom_returns)
    = [0.5; -0.25; 0.5]%float /\
  Documented.calculate_performance Sample.tsmom_returns
    = [ ("annualized_return", 63%float);
        ("annualized_volatility", (sqrt 0.1875 * sqrt 252)%float);
        ("sharpe_ratio", (63 / (sqrt 0.1875 * sqrt 252))%float) ] /\
  raises (calculate_performance Sample.tsmom_returns)
         (NotImplementedError "Implement calculate_performance") /\
  calculate_performance Sample.tsmom_returns
    <> inr (Documented.calculate_performance Sample.tsmom_returns) /\
  (forall daily_returns, ~ returns (calculate_performance daily_returns)).
Proof.
  split; [vm_compute; reflexivity|].
  split; [vm_compute; reflexivity|].
  split; [reflexivity|].
  split.
  - apply raises_differs
      with (e := NotImplementedError "Implement calculate_performance").
    reflexivity.
  - intros daily_returns.
    apply raises_not_returns
      with (e := NotImplementedError "Implement calculate_performance").
    reflexivity.
Qed.

(** C9 (code defect): the sample file system holds a well-formed file
    with the price columns SP500, NASDAQ and DJIA and another with GOLD
    and OIL, which the docstring of [read_data] has it read into a
    table of those columns.  The shipped function raises
    NotImplementedError for both paths, as for every path and file
    system: it produces no price table, whatever the columns. *)
Theorem read_data_misses_documented :
  option_map Documented.price_labels (Sample.fs "data/price_data.csv")
    = Some ["SP500"; "NASDAQ"; "DJIA"] /\
  option_map Documented.price_labels (Sample.fs "data/metals.csv")
    = Some ["GOLD"; "OIL"] /\
  raises (read_data Sample.fs "data/price_data.csv")
         (NotImplementedError "Implement read_data") /\
  raises (read_data Sample.fs "data/metals.csv")
         (NotImplementedError "Implement read_data") /\
  (forall fs filepath, ~ returns (read_data fs filepath)).
Proof.
  split; [vm_compute; reflexivity|].
  split; [vm_compute; reflexivity|].
  split; [reflexivity|].
  split; [reflexivity|].
  intros fs filepath.
  apply raises_not_returns
    with (e := NotImplementedError "Implement read_data").
  reflexivity.
Qed.


(** ** The pipeline for any stage functions *)

(** With the shipped stage functions the general pipeline is the
    shipped [run_pipeline]. *)
Lemma run_pipeline_with_shipped (fs : FileSystem) (lookback_days : Z)
  (data_path : string) :
  run_pipeline_with (shipped fs) lookback_days data_path
  = run_pipeline fs lookback_days data_path.
Proof. reflexivity. Qed.

(** One step of a sequence in [py]: the outcome when the first call
    returns, and when it raises. *)
Lemma bind_inr {A B : Type} (c : py A) (k : A -> py B) (v : A) :
  c = inr v -> bind c k = k v.
Proof. intros ->. reflexivity. Qed.

Lemma bind_inl {A B : Type} (c : py A) (k : A -> py B) (e : exn) :
  c = inl e -> bind c k = inl e.
Proof. intros ->. reflexivity. Qed.


Ltac step_pipeline :=
  match goal with
  | H : ?c = inr _ |- context [bind ?c _] => rewrite (bind_inr c _ _ H)
  | H : ?c = inl _ |- context [bind ?c _] => rewrite (bind_inl c _ _ H)
  end.




(** X3: when the six steps before it return and the strategy table
    has no column 'TSMOM', [run_pipeline] ends in KeyError('TSMOM'),
    whatever [calculate_performance] is: it is never called. *)
Theorem run_pipeline_with_missing_tsmom (S : Stages) (lookback_days : Z)
  (data_path : string)
  (daily_prices daily_returns momentum signals volatility strategy_returns
     : DataFrame) :
  impl_read_data S data_path = inr daily_prices ->
  impl_calculate_returns S daily_prices = inr daily_returns ->
  impl_calculate_momentum S daily_returns lookback_days = inr momentum ->
  impl_generate_signals S momentum = inr signals ->
  impl_calculate_volatility S daily_returns lookback_days = inr volatility ->
  impl_calculate_strategy_returns S signals daily_returns volatility
    default_target_vol = inr strategy_returns ->
  lookup_column "TSMOM" (columns strategy_returns) = None ->
  run_pipeline_with S lookback_days data_path = inl (KeyError "TSMOM").
Proof.
  intros H1 H2 H3 H4 H5 H6 H7.
  unfold run_pipeline_with.
  repeat step_pipeline.
  unfold getitem. rewrite H7. reflexivity.
Qed.

Lemma run_pipeline_with_missing_tsmom_witness :
  run_pipeline_with (stages_without_tsmom Sample.prices) 2 "data/price_data.csv"
  = inl (KeyError "TSMOM").
Proof.
  eapply (run_pipeline_with_missing_tsmom
            (stages_without_tsmom Sample.prices) 2 "data/price_data.csv");
    reflexivity.
Defined.



(** ** [main] *)

Lemma str_append_assoc (a b c : string) :
  ((a ++ b) ++ c = a ++ (b ++ c))%string.
Proof.
  induction a as [|ch a IH]; simpl.
  - reflexivity.
  - now rewrite IH.
Qed.

Lemma str_append_empty_r (a : string) : (a ++ "" = a)%string.
Proof.
  induction a as [|ch a IH]; simpl.
  - reflexivity.
  - now rewrite IH.
Qed.

Lemma dict_getitem_missing (d : PerformanceDict) (key : string) :
  has_key d key = false -> dict_getitem d key = inl (KeyError key).
Proof.
  unfold has_key.
  induction d as [|[k v] d IH]; simpl; intros H.
  - reflexivity.
  - destruct (String.eqb k key); [discriminate H|].
    apply IH. exact H.
Qed.

Lemma dict_getitem_present (d : PerformanceDict) (key : string) :
  has_key d key = true -> exists v, dict_getitem d key = inr v.
Proof.
  unfold has_key.
  induction d as [|[k v] d IH]; simpl; intros H.
  - discriminate H.
  - destruct (String.eqb k key).
    + now exists v.
    + apply IH. exact H.
Qed.

Ltac case_key d key :=
  let Hk := fresh "Hk" in
  let v := fresh "v" in
  let Hv := fresh "Hv" in
  destruct (has_key d key) eqn:Hk;
  [ destruct (dict_getitem_present d key Hk) as [v Hv]
  | pose proof (dict_getitem_missing d key Hk) as Hv ].

(** X4: how [main] ends.  It ends in the exception of [run_pipeline]
    when that raises; in KeyError of the first of 'annualized_return',
    'annualized_volatility', 'sharpe_ratio' that the returned
    dictionary lacks; and it returns normally only when the pipeline
    returns a dictionary that has all three. *)
Theorem main_with_result (pipeline : Z -> string -> py PerformanceDict)
  (format_10_4f : float -> string) (args : Namespace) (out : string) :
  snd (main_with pipeline format_10_4f args out)
  = match pipeline (args_lookback_days args) (args_data args) with
    | inl e => inl e
    | inr performance =>
        match first_missing_metric performance with
        | Some key => inl (KeyError key)
        | None => inr tt
        end
    end.
Proof.
  unfold main_with, first_missing_metric. simpl.
  unfold io_bind, print, call. simpl.
  destruct (pipeline (args_lookback_days args) (args_data args)) as [e|d];
    [reflexivity|].
  case_key d "annualized_return"; rewrite Hv; simpl; [|reflexivity].
  case_key d "annualized_volatility"; rewrite Hv0; simpl; [|reflexivity].
  case_key d "sharpe_ratio"; rewrite Hv1; simpl; reflexivity.
Qed.

(** X5: whatever [run_pipeline] does, [main] only appends to standard
    output, and what it appends begins with the header line and the
    rule of 60 '=' characters. *)
Theorem main_with_prints_header_first
  (pipeline : Z -> string -> py PerformanceDict)
  (format_10_4f : float -> string) (args : Namespace) (out : string) :
  String.length rule_line = 60%nat /\
  exists rest,
    fst (main_with pipeline format_10_4f args out)
    = out ++ header_line args ++ newline ++ rule_line ++ newline ++ rest.
Proof.
  split; [reflexivity|].
  unfold main_with.
  change (@bind io Monad_io) with (@io_bind).
  unfold io_bind, print, call.
  generalize (header_line args) as h.
  generalize rule_line as r.
  generalize newline as n.
  intros n r h.
  destruct (pipeline (args_lookback_days args) (args_data args)) as [e|d].
  { exists EmptyString. cbn [fst].
    now rewrite !str_append_assoc, str_append_empty_r. }
  destruct (dict_getitem d "annualized_return");
    [cbn [fst]; eexists; rewrite !str_append_assoc; reflexivity|].
  destruct (dict_getitem d "annualized_volatility");
    [cbn [fst]; eexists; rewrite !str_append_assoc; reflexivity|].
  destruct (dict_getitem d "sharpe_ratio");
    cbn [fst]; eexists; rewrite !str_append_assoc; reflexivity.
Qed.

(** X6: with the shipped code, [main] prints the header line and the
    rule and then ends in NotImplementedError('Implement read_data'),
    for every parsed argument: no metric is ever printed. *)
Theorem main_shipped_output (fs : FileSystem)
  (format_10_4f : float -> string) (args : Namespace) (out : string) :
  main fs format_10_4f args out
  = (out ++ header_line args ++ newline ++ rule_line ++ newline,
     inl (NotImplementedError "Implement read_data")).
Proof.
  unfold main, main_with.
  change (@bind io Monad_io) with (@io_bind).
  unfold io_bind, print, call.
  change (run_pipeline fs (args_lookback_days args) (args_data args))
    with (@inl exn PerformanceDict (NotImplementedError "Implement read_data")).
  generalize (header_line args) as h.
  generalize rule_line as r.
  generalize newline as n.
  intros n r h.
  now rewrite !str_append_assoc.
Qed.

Example str_int_samples :
  str_int 252 = "252" /\ str_int 0 = "0" /\ str_int (-5) = "-5" /\
  header_line (mkNamespace 252 default_data_path)
  = "Running Time Series Momentum Strategy (lookback=252 days)".
Proof. repeat split; reflexivity. Qed.

(** ** The public tests *)

(** X7: for any stage functions, the fixture [performance] of the
    public tests computes what [run_pipeline] computes for a look-back
    of 63 and the path 'data/price_data.csv': the same value when it
    returns and the same exception when it raises. *)
Theorem performance_fixture_is_run_pipeline (S : Stages) :
  TestPublic.performance S
  = run_pipeline_with S TestPublic.LOOKBACK_DAYS TestPublic.DATA_PATH.
Proof.
  unfold TestPublic.performance, TestPublic.strategy_returns,
    TestPublic.signals, TestPublic.volatility, TestPublic.momentum,
    TestPublic.daily_returns, TestPublic.prices, run_pipeline_with.
  destruct (impl_read_data S TestPublic.DATA_PATH) as [e|p];
    cbn; [reflexivity|].
  destruct (impl_calculate_returns S p) as [e|r]; cbn; [reflexivity|].
  destruct (impl_calculate_momentum S r TestPublic.LOOKBACK_DAYS) as [e|m];
    cbn; [reflexivity|].
  destruct (impl_generate_signals S m) as [e|s]; cbn; [reflexivity|].
  destruct (impl_calculate_volatility S r TestPublic.LOOKBACK_DAYS) as [e|v];
    cbn; [reflexivity|].
  destruct (impl_calculate_strategy_returns S s r v default_target_vol)
    as [e|sr]; cbn; [reflexivity|].
  destruct (getitem sr "TSMOM") as [e|ts]; cbn; [reflexivity|].
  destruct (impl_calculate_performance S ts) as [e|perf]; reflexivity.
Qed.

(** X8: every fixture of the public tests depends on [read_data]:
    when [read_data] raises an exception on the data path, each of the
    seven fixtures ends in that exception, also the fixtures of the
    later stages, so that no test reaches its assertion.  With the
    shipped code that is NotImplementedError('Implement read_data'). *)
Theorem fixtures_raise_with_read_data (S : Stages) (e : exn) :
  impl_read_data S TestPublic.DATA_PATH = inl e ->
  raises (TestPublic.prices S) e /\
  raises (TestPublic.daily_returns S) e /\
  raises (TestPublic.momentum S) e /\
  raises (TestPublic.signals S) e /\
  raises (TestPublic.volatility S) e /\
  raises (TestPublic.strategy_returns S) e /\
  raises (TestPublic.performance S) e.
Proof.
  intros H.
  unfold raises, TestPublic.performance, TestPublic.strategy_returns,
    TestPublic.signals, TestPublic.volatility, TestPublic.momentum,
    TestPublic.daily_returns, TestPublic.prices.
  rewrite H. repeat split.
Qed.

Lemma fixtures_raise_with_read_data_witness :
  raises (TestPublic.prices (shipped Sample.fs))
         (NotImplementedError "Implement read_data") /\
  raises (TestPublic.daily_returns (shipped Sample.fs))
         (NotImplementedError "Implement read_data") /\
  raises (TestPublic.momentum (shipped Sample.fs))
         (NotImplementedError "Implement read_data") /\
  raises (TestPublic.signals (shipped Sample.fs))
         (NotImplementedError "Implement read_data") /\
  raises (TestPublic.volatility (shipped Sample.fs))
         (NotImplementedError "Implement read_data") /\
  raises (TestPublic.strategy_returns (shipped Sample.fs))
         (NotImplementedError "Implement read_data") /\
  raises (TestPublic.performance (shipped Sample.fs))
         (NotImplementedError "Implement read_data").
Proof.
  apply (fixtures_raise_with_read_data (shipped Sample.fs)
           (NotImplementedError "Implement read_data")).
  reflexivity.
Defined.

(** *** Counting the leading missing rows *)

Lemma cumsum_from_length (acc : nat) (mask : list bool) :
  length (TestPublic.cumsum_from acc mask) = length mask.
Proof.
  revert acc. induction mask as [|b mask IH]; intros acc; simpl.
  - reflexivity.
  - now rewrite IH.
Qed.

Lemma eq_range_cons (x : nat) (xs : list nat) (start : nat) :
  TestPublic.eq_range (x :: xs) start
  = Nat.eqb x start :: TestPublic.eq_range xs (S start).
Proof. reflexivity. Qed.

(** Once the running count has fallen behind the row number it never
    meets it again. *)
Lemma eq_range_behind (mask : list bool) (acc start : nat) :
  (acc + 1 < start)%nat ->
  TestPublic.sum_mask
    (TestPublic.eq_range (TestPublic.cumsum_from acc mask) start) = 0%nat.
Proof.
  revert acc start.
  induction mask as [|b mask IH]; intros acc start Hlt.
  - reflexivity.
  - cbn [TestPublic.cumsum_from]. rewrite eq_range_cons.
    cbn [TestPublic.sum_mask fold_right].
    change (fold_right _ 0%nat ?l) with (TestPublic.sum_mask l).
    rewrite IH by (destruct b; lia).
    replace (Nat.eqb (acc + (if b then 1 else 0)) start) with false.
    + reflexivity.
    + symmetry. apply Nat.eqb_neq. destruct b; lia.
Qed.

Lemma eq_range_leading (col : list float) (acc : nat) :
  TestPublic.sum_mask
    (TestPublic.eq_range
       (TestPublic.cumsum_from acc (TestPublic.isna col)) (S acc))
  = length (TestPublic.leading_nans col).
Proof.
  revert acc.
  induction col as [|x col IH]; intros acc.
  - reflexivity.
  - cbn [TestPublic.isna map TestPublic.cumsum_from TestPublic.leading_nans].
    change (map is_nan col) with (TestPublic.isna col).
    rewrite eq_range_cons.
    cbn [TestPublic.sum_mask fold_right].
    change (fold_right _ 0%nat ?l) with (TestPublic.sum_mask l).
    destruct (is_nan x).
    + replace (acc + 1)%nat with (S acc) by lia.
      rewrite Nat.eqb_refl, IH. reflexivity.
    + rewrite Nat.add_0_r.
      rewrite eq_range_behind by lia.
      replace (Nat.eqb acc (S acc)) with false; [reflexivity|].
      symmetry. apply Nat.eqb_neq. lia.
Qed.

(** X9: the count both NaN-pattern tests compute (the cumulative sum
    of [isna], compared with 1, 2, ..., and summed) is the number of
    missing cells at the start of the column, before the first cell
    that is not missing; missing cells further down are not counted. *)
Theorem nan_count_is_leading_nans (first_col : list float) :
  TestPublic.nan_count first_col
  = length (TestPublic.leading_nans first_col).
Proof.
  unfold TestPublic.nan_count, TestPublic.cumsum.
  apply eq_range_leading.
Qed.

Lemma leading_nans_at_least (col : list float) (k : nat) :
  (k <= length (TestPublic.leading_nans col))%nat
  <-> (k <= length col)%nat /\ forallb is_nan (firstn k col) = true.
Proof.
  revert k. induction col as [|x col IH]; intros k.
  - simpl. destruct k; simpl.
    + split; [intros _; split; [lia | reflexivity] | lia].
    + split; [lia | intros [H _]; lia].
  - destruct k as [|k].
    + simpl. split; [intros _; split; [lia | reflexivity] | lia].
    + cbn [TestPublic.leading_nans firstn forallb length].
      destruct (is_nan x); cbn [length andb].
      * rewrite <- !Nat.succ_le_mono. apply IH.
      * split; [lia | intros [_ H]; discriminate H].
Qed.

(** X10: [test_momentum_nan_count] and [test_volatility_nan_count]
    pass exactly when the table has a first column of at least 63 rows
    whose first 63 cells are all missing; on a table without columns
    they end in IndexError, not in a failed assertion. *)
Theorem test_nan_count_passes_iff (table : DataFrame) :
  (TestPublic.test_momentum_nan_count table = TestPublic.passed
   <-> exists c rest,
         columns table = c :: rest /\
         (63 <= length (snd c))%nat /\
         forallb is_nan (firstn 63 (snd c)) = true) /\
  (TestPublic.test_volatility_nan_count table
   = TestPublic.test_momentum_nan_count table) /\
  (columns table = [] ->
   TestPublic.test_momentum_nan_count table = inl TestPublic.IndexError).
Proof.
  unfold TestPublic.test_volatility_nan_count,
    TestPublic.test_momentum_nan_count, TestPublic.test_nan_count,
    TestPublic.iloc_first_column, TestPublic.passed, TestPublic.assert.
  split; [|split; [reflexivity | intros ->; reflexivity]].
  destruct (columns table) as [|c rest].
  - split; [discriminate | intros (c & rest & H & _); discriminate H].
  - unfold TestPublic.nan_count, TestPublic.cumsum.
    rewrite eq_range_leading.
    destruct (Z.leb_spec TestPublic.LOOKBACK_DAYS
                (Z.of_nat (length (TestPublic.leading_nans (snd c)))))
      as [Hle|Hlt].
    + split; [intros _ | reflexivity].
      exists c, rest. split; [reflexivity|].
      apply leading_nans_at_least.
      unfold TestPublic.LOOKBACK_DAYS in Hle. lia.
    + split; [discriminate|].
      intros (c' & rest' & Heq & Hk). injection Heq as <- <-.
      apply leading_nans_at_least in Hk.
      unfold TestPublic.LOOKBACK_DAYS in Hlt. lia.
Qed.

(** *** The non-negativity check *)

Lemma select_forallb {A : Type} (p : A -> bool) (d : A)
  (mask : list bool) (l : list A) :
  length mask = length l ->
  (forallb p (TestPublic.select mask l) = true
   <-> forall t, (t < length l)%nat ->
                 nth t mask false = true -> p (nth t l d) = true).
Proof.
  revert l. induction mask as [|b mask IH]; intros [|x l] Hlen;
    try discriminate Hlen.
  - simpl. split; [intros _ t Ht; lia | reflexivity].
  - injection Hlen as Hlen. specialize (IH l Hlen).
    cbn [TestPublic.select].
    split.
    + intros H t Ht Hm. destruct t as [|t].
      * cbn [nth] in *. subst b. cbn [forallb] in H.
        now apply andb_prop in H.
      * cbn [nth] in *. apply (proj1 IH); [|simpl in Ht; lia|exact Hm].
        destruct b; [cbn [forallb] in H; now apply andb_prop in H | exact H].
    + intros H.
      assert (Hrest : forallb p (TestPublic.select mask l) = true).
      { apply (proj2 IH). intros t Ht Hm.
        apply (H (S t)); [simpl; lia | exact Hm]. }
      destruct b; [|exact Hrest].
      cbn [forallb]. rewrite Hrest, andb_true_r.
      apply (H 0%nat); [simpl; lia | reflexivity].
Qed.

Lemma nth_map_seq (f : nat -> bool) (n t : nat) :
  (t < n)%nat -> nth t (map f (seq 0 n)) false = f t.
Proof.
  intros Ht.
  rewrite (nth_indep _ false (f 0%nat)) by (now rewrite length_map, length_seq).
  rewrite map_nth, seq_nth by exact Ht. reflexivity.
Qed.

(** The rows that [dropna] keeps are the rows without a missing cell,
    so a check of all cells of the result is a check of those rows. *)
Lemma dropna_cells_iff (p : float -> bool) (table : DataFrame) :
  TestPublic.well_formed table ->
  (TestPublic.assert
     (forallb (fun c => forallb p (snd c))
              (columns (TestPublic.dropna table))) = TestPublic.passed
   <-> forall t, (t < length (index table))%nat ->
                 TestPublic.row_has_na table t = false ->
                 forall c, In c (columns table) ->
                           p (TestPublic.cell c t) = true).
Proof.
  intros Hwf.
  unfold TestPublic.passed, TestPublic.assert, TestPublic.dropna.
  cbn [columns].
  set (n := length (index table)).
  set (keep := map (fun t => negb (TestPublic.row_has_na table t))
                   (seq 0 n)).
  assert (Hkeep : length keep = n)
    by (unfold keep; now rewrite length_map, length_seq).
  unfold TestPublic.well_formed in Hwf. rewrite Forall_forall in Hwf.
  fold n in Hwf.
  match goal with
  | |- (if ?b then _ else _) = _ <-> _ => destruct b eqn:Hall
  end.
  - split; [intros _ | reflexivity].
    intros t Ht Hna c Hc.
    rewrite forallb_forall in Hall.
    specialize (Hall (fst c, TestPublic.select keep (snd c))).
    cbn [snd] in Hall.
    assert (Hin : In (fst c, TestPublic.select keep (snd c))
                     (map (fun c0 => (fst c0, TestPublic.select keep (snd c0)))
                          (columns table)))
      by (apply in_map_iff; exists c; split; [reflexivity | exact Hc]).
    specialize (Hall Hin).
    pose proof (Hwf c Hc) as Hlen.
    apply (proj1 (select_forallb _ nan keep (snd c)
                    (eq_trans Hkeep (eq_sym Hlen))) Hall t).
    + rewrite Hlen. exact Ht.
    + unfold keep. rewrite nth_map_seq by exact Ht. now rewrite Hna.
  - split; [discriminate|].
    intros H. exfalso.
    assert (Htrue : forallb
              (fun c => forallb p (snd c))
              (map (fun c => (fst c, TestPublic.select keep (snd c)))
                   (columns table)) = true).
    { apply forallb_forall. intros c' Hc'.
      apply in_map_iff in Hc' as (c & <- & Hc). cbn [snd].
      pose proof (Hwf c Hc) as Hlen.
      apply (proj2 (select_forallb _ nan keep (snd c)
                      (eq_trans Hkeep (eq_sym Hlen)))).
      intros t Ht Hm. rewrite Hlen in Ht.
      unfold keep in Hm. rewrite nth_map_seq in Hm by exact Ht.
      apply (H t Ht); [|exact Hc].
      now destruct (TestPublic.row_has_na table t). }
    rewrite Htrue in Hall. discriminate Hall.
Qed.


Lemma negb_existsb_forallb {A : Type} (p : A -> bool) (l : list A) :
  negb (existsb p l) = forallb (fun x => negb (p x)) l.
Proof.
  induction l as [|x l IH]; simpl.
  - reflexivity.
  - now rewrite negb_orb, IH.
Qed.

Lemma negb_any_cell (p : float -> bool) (cols : list (string * list float)) :
  negb (existsb (fun c => existsb p (snd c)) cols)
  = forallb (fun c => forallb (fun x => negb (p x)) (snd c)) cols.
Proof.
  induction cols as [|c cols IH]; simpl.
  - reflexivity.
  - now rewrite negb_orb, IH, negb_existsb_forallb.
Qed.

(** X11: on a well-formed table, [test_non_negative_values] passes
    exactly when every row without a missing cell has only cells that
    are at least 0.  A row with a missing cell is dropped whole: its
    other cells are not looked at, negative or not. *)
Theorem test_non_negative_values_iff (volatility : DataFrame) :
  TestPublic.well_formed volatility ->
  (TestPublic.test_non_negative_values volatility = TestPublic.passed
   <-> forall t, (t < length (index volatility))%nat ->
                 TestPublic.row_has_na volatility t = false ->
                 forall c, In c (columns volatility) ->
                           (0 <=? TestPublic.cell c t)%float = true).
Proof.
  intros Hwf.
  unfold TestPublic.test_non_negative_values, TestPublic.all_non_negative.
  apply (dropna_cells_iff (fun x => (0 <=? x)%float) volatility Hwf).
Qed.

Lemma test_non_negative_values_iff_witness :
  TestPublic.test_non_negative_values Sample.st_volatility = TestPublic.passed
  <-> forall t, (t < length (index Sample.st_volatility))%nat ->
                TestPublic.row_has_na Sample.st_volatility t = false ->
                forall c, In c (columns Sample.st_volatility) ->
                          (0 <=? TestPublic.cell c t)%float = true.
Proof.
  apply (test_non_negative_values_iff Sample.st_volatility).
  repeat constructor.
Defined.

(** X12: on a well-formed table, the check [test_no_inf_values] of the
    strategy returns passes exactly when no row without a missing cell
    holds an infinite cell; an infinite cell in a row that also has a
    missing cell is dropped with the row and goes unnoticed. *)
Theorem test_no_inf_values_iff (strategy_returns : DataFrame) :
  TestPublic.well_formed strategy_returns ->
  (TestPublic.test_no_inf_values strategy_returns = TestPublic.passed
   <-> forall t, (t < length (index strategy_returns))%nat ->
                 TestPublic.row_has_na strategy_returns t = false ->
                 forall c, In c (columns strategy_returns) ->
                           is_infinity (TestPublic.cell c t) = false).
Proof.
  intros Hwf.
  unfold TestPublic.test_no_inf_values, TestPublic.any_infinite.
  rewrite negb_any_cell.
  rewrite (dropna_cells_iff (fun x => negb (is_infinity x))
             strategy_returns Hwf).
  split; intros H t Ht Hna c Hc; specialize (H t Ht Hna c Hc).
  - now apply negb_true_iff.
  - now apply negb_true_iff.
Qed.

Lemma test_no_inf_values_iff_witness :
  TestPublic.test_no_inf_values Sample.st_returns = TestPublic.passed
  <-> forall t, (t < length (index Sample.st_returns))%nat ->
                TestPublic.row_has_na Sample.st_returns t = false ->
                forall c, In c (columns Sample.st_returns) ->
                          is_infinity (TestPublic.cell c t) = false.
Proof.
  apply (test_no_inf_values_iff Sample.st_returns).
  repeat constructor.
Defined.

(** The checks at work: two leading missing cells are counted, a later
    one is not; and a negative or infinite cell passes unnoticed when
    its row has a missing cell. *)
Example test_checks_samples :
  TestPublic.nan_count [nan; nan; 1; nan]%float = 2%nat /\
  TestPublic.test_non_negative_values
    (mkDataFrame (Sample.days 2)
       [("A", [nan; 1]%float); ("B", [-1; 2]%float)]) = TestPublic.passed /\
  TestPublic.test_non_negative_values
    (mkDataFrame (Sample.days 2)
       [("A", [0; 1]%float); ("B", [-1; 2]%float)])
    = inl TestPublic.AssertionError /\
  TestPublic.test_no_inf_values
    (mkDataFrame (Sample.days 2)
       [("A", [nan; 1]%float); ("B", [infinity; 2]%float)])
    = TestPublic.passed.
Proof. repeat split; vm_compute; reflexivity. Qed.
